(** * NBA ingestion script: fetchers and DuckDB loader

    Shallow embedding of [scripts/ingest_nba_data.py].  The script talks to
    three collaborators that live outside the repository: the NBA stats
    service (through [nba_api]), the [pandas] DataFrame constructor and the
    DuckDB engine.  The service's answers, the engine's failures, its
    reading of a DataFrame and the file a path names are variables of the
    section that holds the script; what a successful SQL statement does to
    the catalog is written out. *)

From stdpp Require Import gmap strings list fin_maps pretty.
From Stdlib Require Import ZArith Ascii.

Local Open Scope string_scope.
Local Open Scope list_scope.
Local Open Scope Z_scope.

(** ** Tabular data *)

(** A cell of a DataFrame column, as Python hands it over. *)
Inductive cell : Type :=
  | CNone
  | CInt (z : Z)
  | CStr (s : string)
  | CBool (b : bool).

(** [pd.DataFrame]: ordered column names and the rows under them. *)
Record DataFrame : Type := mkDataFrame {
  columns : list string;
  rows : list (list cell)
}.

(** ** Exceptions *)

Inductive Error : Type :=
  | ValueError (msg : string)
  | IndexError (msg : string)
  | CatalogException (msg : string)
  | IOException (msg : string)
  | InvalidInputException (msg : string)
  | UpstreamError (msg : string).

(** ** The NBA stats service, as [nba_api] exposes it *)

(** The two endpoints the script instantiates, with the keyword arguments it
    passes. *)
Inductive Request : Type :=
  | CommonAllPlayersReq (is_only_current_season : Z)
  | LeagueDashPlayerStatsReq (season : string).

(** An endpoint object after its request went through: it keeps the request
    and the result sets of the response, in the order they were returned. *)
Record Endpoint : Type := mkEndpoint {
  ep_request : Request;
  data_sets : list DataFrame
}.

(** [Endpoint.get_data_frames()]: one DataFrame per result set. *)
Definition get_data_frames (ep : Endpoint) : list DataFrame := data_sets ep.

(** Arguments a Python caller can pass to the [pd.DataFrame] constructor in
    this script. *)
Inductive PyObject : Type :=
  | ObjDataFrame (df : DataFrame)
  | ObjEndpoint (ep : Endpoint).

(** [pd.DataFrame(data)] with no [index] or [columns]: the constructor takes
    an ndarray, an iterable, a dict or a DataFrame.  A DataFrame comes back
    with the same columns and rows; an endpoint object is none of these and
    is not iterable, and the constructor raises. *)
Definition pd_DataFrame (data : PyObject) : Error + DataFrame :=
  match data with
  | ObjDataFrame df => inr df
  | ObjEndpoint _ => inl (ValueError "DataFrame constructor not properly called!")
  end.

(** ** The DuckDB catalog *)

(** The statements the script sends.  The SQL text names a DataFrame of the
    calling frame ([select * from df_players]); the statement carries the
    DataFrame that name is bound to. *)
Inductive Stmt : Type :=
  | CreateSchemaIfNotExists (schema : string)
  | CreateOrReplaceTableAs (schema table : string) (src : DataFrame).

(** The engine compares identifiers without regard to case: [raw."Players"]
    and [raw.players] name one table. *)
Definition lower_ascii (c : ascii) : ascii :=
  let n := Ascii.N_of_ascii c in
  if ((65 <=? n) && (n <=? 90))%N then Ascii.ascii_of_N (n + 32) else c.

Fixpoint lower (s : string) : string :=
  match s with
  | EmptyString => EmptyString
  | String c s' => String (lower_ascii c) (lower s')
  end.

Definition fold_key (k : string * string) : string * string :=
  (lower k.1, lower k.2).

(** One database file: its schemas and its tables, keyed by schema and
    table name.  A table holds what the engine read from a DataFrame, in the
    same shape: column names and rows.  The statements below enter names in
    lower case. *)
Record Database : Type := mkDatabase {
  schemas : gset string;
  tables : gmap (string * string) DataFrame
}.

(** A database file that was just created. *)
Definition empty_db : Database := mkDatabase ∅ ∅.

(** The database has a schema of that name, in some spelling. *)
Definition has_schema (db : Database) (s : string) : Prop :=
  lower s ∈ (set_map lower (schemas db) : gset string).

#[global] Instance has_schema_dec (db : Database) (s : string) :
  Decision (has_schema db s).
Proof. unfold has_schema. apply _. Defined.

Definition add_schema (s : string) (db : Database) : Database :=
  mkDatabase ({[lower s]} ∪ schemas db) (tables db).

(** [create or replace table s.t]: every table of that name, in whatever
    spelling, goes, and the new one comes in. *)
Definition replace_table (s t : string) (tbl : DataFrame)
    (tb : gmap (string * string) DataFrame) : gmap (string * string) DataFrame :=
  <[(lower s, lower t) := tbl]>
    (filter (λ kv, fold_key kv.1 ≠ (lower s, lower t)) tb).

(** What the outside world sees of a run. *)
Inductive Event : Type :=
  | EvPrint (msg : string)
  | EvRequest (r : Request)
  | EvConnect (path : string)
  | EvExecute (q : Stmt)
  | EvClose (path : string).

(** The file system (database files, each under the one resolved path that
    identifies it) and the events so far. *)
Record World : Type := mkWorld {
  files : gmap string Database;
  trace : list Event
}.

Definition emit (e : Event) (w : World) : World :=
  mkWorld (files w) (trace w ++ [e]).

Definition write_file (path : string) (db : Database) (w : World) : World :=
  mkWorld (<[path := db]> (files w)) (trace w).

(** The table [schema.table] of the database file [path], if both exist. *)
Definition table_at (w : World) (path schema table : string) : option DataFrame :=
  files w !! path ≫= λ db, tables db !! (lower schema, lower table).

(** ** Computations that change the world and may raise *)

Definition M (A : Type) : Type := World → World * (Error + A).

Definition ret {A} (a : A) : M A := λ w, (w, inr a).

Definition raise {A} (e : Error) : M A := λ w, (w, inl e).

Definition bind {A B} (m : M A) (k : A → M B) : M B :=
  λ w, match m w with
       | (w', inr a) => k a w'
       | (w', inl e) => (w', inl e)
       end.

Definition lift {A} (r : Error + A) : M A :=
  match r with inl e => raise e | inr a => ret a end.

#[global] Instance M_ret : MRet M := @ret.
#[global] Instance M_bind : MBind M := λ A B k m, bind m k.

(** [xs[0]] on a Python list. *)
Definition index0 {A} (xs : list A) : Error + A :=
  match xs with
  | [] => inl (IndexError "list index out of range")
  | x :: _ => inr x
  end.

(** ** Season labels *)

(** The label of the season that starts in [start_year], as the service
    writes it: "2024-25" for 2024. *)
Definition season_label (start_year : Z) : string :=
  pretty start_year +:+ "-" +:+
  pretty (((start_year + 1) `div` 10) `mod` 10) +:+ pretty ((start_year + 1) `mod` 10).

(** The season in progress in a given month, as the specification's words
    "the current season" read: a season spans two calendar years and starts
    in October.  The script has no counterpart of this function. *)
Definition spec_current_season (year month : Z) : string :=
  season_label (if decide (month < 10) then year - 1 else year).

(** The request asks for every player, not only those of the current
    season: the service's IsOnlyCurrentSeason flag is 0. *)
Definition includes_historical (r : Request) : bool :=
  match r with
  | CommonAllPlayersReq flag => bool_decide (flag = 0)
  | LeagueDashPlayerStatsReq _ => false
  end.

(** ** Sample data, services and engines *)

Definition players3 : DataFrame :=
  mkDataFrame ["PERSON_ID"; "DISPLAY_FIRST_LAST"; "ROSTERSTATUS"]
    [[CInt 2544; CStr "LeBron James"; CInt 1];
     [CInt 201939; CStr "Stephen Curry"; CInt 1];
     [CInt 893; CStr "Michael Jordan"; CInt 0]].

Definition stats3 : DataFrame :=
  mkDataFrame ["PLAYER_ID"; "GP"; "PTS"]
    [[CInt 2544; CInt 70; CInt 1708];
     [CInt 201939; CInt 70; CInt 1718];
     [CInt 203999; CInt 70; CInt 2071]].

Definition old_players : DataFrame :=
  mkDataFrame ["PERSON_ID"; "DISPLAY_FIRST_LAST"; "ROSTERSTATUS"]
    [[CInt 76001; CStr "Alaa Abdelnaby"; CInt 0];
     [CInt 2544; CStr "LeBron James"; CInt 1]].

Definition old_stats : DataFrame :=
  mkDataFrame ["PLAYER_ID"; "GP"; "PTS"] [[CInt 2544; CInt 71; CInt 1822]].

Definition no_players : DataFrame :=
  mkDataFrame ["PERSON_ID"; "DISPLAY_FIRST_LAST"; "ROSTERSTATUS"] [].

Definition team_totals : DataFrame :=
  mkDataFrame ["TEAM_ID"; "PTS"] [[CInt 1610612747; CInt 9280]].

Definition sample_path : string := "warehouse/nba.duckdb".

(** No files yet. *)
Definition w_fresh : World := mkWorld ∅ [].

(** A database file left by an earlier run. *)
Definition old_db : Database :=
  mkDatabase {["raw"]}
    {[ ("raw", "players") := old_players; ("raw", "player_stats") := old_stats ]}.

Definition w_old : World := mkWorld {[ sample_path := old_db ]} [].

(** A service that answers the season request with two result sets. *)
Definition sample_service (r : Request) : Error + list DataFrame :=
  match r with
  | CommonAllPlayersReq _ => inr [players3]
  | LeagueDashPlayerStatsReq _ => inr [stats3; team_totals]
  end.

(** An engine without faults. *)
Definition opens_fine (path : string) : option Error := None.
Definition stores_fine (q : Stmt) (db : Database) : option Error := None.

(** An engine that cannot write one table. *)
Definition cannot_write (table : string) (q : Stmt) (db : Database) : option Error :=
  match q with
  | CreateOrReplaceTableAs _ t _ =>
      if decide (t = table) then Some (IOException "disk full") else None
  | CreateSchemaIfNotExists _ => None
  end.

(** An engine that cannot open any file. *)
Definition locked_file (path : string) : option Error :=
  Some (IOException "Could not set lock on file").

(** A service that is down. *)
Definition failing_service (r : Request) : Error + list DataFrame :=
  inl (UpstreamError "HTTP 503").

(** Paths that are written in resolved form already. *)
Definition as_written (path : string) : string := path.

(** Paths resolved against a working directory. *)
Definition from_dir (cwd path : string) : string :=
  match path with
  | String "/"%char _ => path
  | _ => cwd +:+ "/" +:+ path
  end.

(** An engine that stores a frame as it is. *)
Definition as_is (df : DataFrame) : DataFrame := df.

(** An engine that renames a column whose name came before, as DuckDB does
    ([PTS], [PTS] becomes [PTS], [PTS_1]). *)
Fixpoint rename_repeats (seen cols : list string) : list string :=
  match cols with
  | [] => []
  | c :: cols' =>
      (if bool_decide (lower c ∈ seen) then c +:+ "_1" else c)
      :: rename_repeats (lower c :: seen) cols'
  end.

Definition renaming (df : DataFrame) : DataFrame :=
  mkDataFrame (rename_repeats [] (columns df)) (rows df).

(** DuckDB's check of a frame it is asked to scan: a frame without columns
    is rejected.  Nothing else fails on this engine. *)
Definition rejects_columnless (q : Stmt) (db : Database) : option Error :=
  match q with
  | CreateOrReplaceTableAs _ _ src =>
      match columns src with
      | [] => Some (InvalidInputException "Need a DataFrame with at least one column")
      | _ :: _ => None
      end
  | CreateSchemaIfNotExists _ => None
  end.

(** The engine's only rejection is of a frame without columns. *)
Definition rejects_only_columnless (store_fault : Stmt → Database → option Error) : Prop :=
  ∀ q db e, store_fault q db = Some e →
            ∃ s t src, q = CreateOrReplaceTableAs s t src ∧ columns src = [].

(** The engine's reading of a frame has one row per row of the frame. *)
Definition keeps_row_count (stored : DataFrame → DataFrame) : Prop :=
  ∀ df, length (rows (stored df)) = length (rows df).

(** A frame with a repeated column, and frames without rows. *)
Definition repeated_pts : DataFrame :=
  mkDataFrame ["PLAYER_ID"; "PTS"; "PTS"]
    [[CInt 2544; CInt 1708; CInt 25]; [CInt 201939; CInt 1718; CInt 26]].

Definition no_frame : DataFrame := mkDataFrame [] [].

(** A database whose players table was created as [raw."Players"]. *)
Definition quoted_db : Database :=
  mkDatabase {["raw"]} {[ ("raw", "Players") := old_players ]}.
Definition w_quoted : World := mkWorld {[ sample_path := quoted_db ]} [].

Section Pipeline.

(** The stats service: the result sets it returns for a request, or the
    error the client raises (also when the answer lacks the result set the
    endpoint expects). *)
Variable nba_stats : Request → Error + list DataFrame.

(** The file a path names: its resolution against the working directory.
    Two spellings of one file resolve to the same string. *)
Variable resolve : string → string.

(** The engine's own failures: opening a file, and running a statement on
    a database (I/O errors, rejected input and the like). *)
Variable open_fault : string → option Error.
Variable store_fault : Stmt → Database → option Error.

(** The engine's reading of a DataFrame it accepted: the table it writes
    for it (columns renamed where names repeat, values converted to the
    column types it chose). *)
Variable stored : DataFrame → DataFrame.

(** *** nba_api endpoints *)

(** Instantiating an endpoint sends its request. *)
Definition send (r : Request) : M Endpoint :=
  λ w, match nba_stats r with
       | inl e => (emit (EvRequest r) w, inl e)
       | inr sets => (emit (EvRequest r) w, inr (mkEndpoint r sets))
       end.

Definition CommonAllPlayers (is_only_current_season : Z) : M Endpoint :=
  send (CommonAllPlayersReq is_only_current_season).

Definition LeagueDashPlayerStats (season : string) : M Endpoint :=
  send (LeagueDashPlayerStatsReq season).

(** *** DuckDB *)

(** One statement on one database.  A statement that fails leaves the
    database as it was.  A table statement writes the engine's reading of
    the frame under the table's name, in place of any table of that name. *)
Definition run_stmt (q : Stmt) (db : Database) : Error + Database :=
  match store_fault q db with
  | Some e => inl e
  | None =>
      match q with
      | CreateSchemaIfNotExists s =>
          if decide (has_schema db s) then inr db
          else inr (add_schema s db)
      | CreateOrReplaceTableAs s t src =>
          if decide (has_schema db s)
          then inr (mkDatabase (schemas db)
                      (replace_table s t (stored src) (tables db)))
          else inl (CatalogException "Schema does not exist")
      end
  end.

(** [duckdb.connect(path)]: opens the file the path names, creating it when
    absent.  The connection is known by that file. *)
Definition connect (path : string) : M string :=
  λ w, let file := resolve path in
       match open_fault file with
       | Some e => (w, inl e)
       | None =>
           match files w !! file with
           | Some _ => (emit (EvConnect file) w, inr file)
           | None => (emit (EvConnect file) (write_file file empty_db w), inr file)
           end
       end.

(** [con.execute(q)] outside a transaction: the statement is committed to
    the file on its own. *)
Definition execute (con : string) (q : Stmt) : M unit :=
  λ w, match files w !! con with
       | None => (w, inl (IOException "connection closed"))
       | Some db =>
           match run_stmt q db with
           | inl e => (emit (EvExecute q) w, inl e)
           | inr db' => (emit (EvExecute q) (write_file con db' w), inr tt)
           end
       end.

Definition close (con : string) : M unit :=
  λ w, (emit (EvClose con) w, inr tt).

(** [with duckdb.connect(path) as con: body]: the connection is closed on
    the way out, whether the body returned or raised. *)
Definition with_connect {A} (path : string) (body : string → M A) : M A :=
  con ← connect path;
  (λ w, match body con w with
        | (w', r) => (fst (close con w'), r)
        end) : M A.

(** *** The script *)

Definition fetch_player_metadata : M DataFrame :=
  player_data ← CommonAllPlayers 0;
  lift (pd_DataFrame (ObjEndpoint player_data)).

Definition default_season : string := "2024-25".

(** [season = None] is a call that leaves the argument out. *)
Definition fetch_player_stats (season : option string) : M DataFrame :=
  let season := default default_season season in
  stats ← LeagueDashPlayerStats season;
  df_stats ← lift (index0 (get_data_frames stats));
  mret df_stats.

Definition default_db_path : string := "../duckdb/nba.duckdb".

Definition load_to_duckdb (df_players df_player_stats : DataFrame)
    (db_path : option string) : M unit :=
  let db_path := default default_db_path db_path in
  let sql_raw_players := CreateOrReplaceTableAs "raw" "players" df_players in
  let sql_raw_player_stats :=
    CreateOrReplaceTableAs "raw" "player_stats" df_player_stats in
  with_connect db_path (λ con,
    execute con (CreateSchemaIfNotExists "raw");;
    execute con sql_raw_players;;
    execute con sql_raw_player_stats).

Definition print (msg : string) : M unit :=
  λ w, (emit (EvPrint msg) w, inr tt).

(** The [__main__] block. *)
Definition main : M unit :=
  print "Fetching player metadata...";;
  df_players ← fetch_player_metadata;
  print "Fetching player stats for 2024–25 season...";;
  df_player_stats ← fetch_player_stats None;
  print "Loading data into DuckDB...";;
  load_to_duckdb df_players df_player_stats None;;
  print "Raw data ingestion complete.".

(** *** The loader, statement by statement *)

(** The database a connection to the file [path] starts from. *)
Definition opened (w : World) (path : string) : Database :=
  default empty_db (files w !! path).

(** The file a call writes to: the one its argument names, or the one the
    default path names. *)
Definition dest (db_path : option string) : string :=
  resolve (default default_db_path db_path).

Definition q_schema : Stmt := CreateSchemaIfNotExists "raw".
Definition q_players (df : DataFrame) : Stmt :=
  CreateOrReplaceTableAs "raw" "players" df.
Definition q_stats (df : DataFrame) : Stmt :=
  CreateOrReplaceTableAs "raw" "player_stats" df.

(** The world after a connection to [path] ran the statements [qs], the
    last of them leaving [db], and was closed. *)
Definition after (w : World) (path : string) (qs : list Stmt) (db : Database) : World :=
  mkWorld (<[path := db]> (files w))
          (trace w ++ EvConnect path :: (EvExecute <$> qs) ++ [EvClose path]).

(** The database after the namespace statement, after the replacement of
    [raw.players], and after all three statements. *)
Definition with_namespace (db : Database) : Database :=
  if decide (has_schema db "raw") then db else add_schema "raw" db.

Definition with_players (P : DataFrame) (db : Database) : Database :=
  mkDatabase (schemas (with_namespace db))
    (replace_table "raw" "players" (stored P) (tables db)).

Definition loaded (P S : DataFrame) (db : Database) : Database :=
  mkDatabase (schemas (with_namespace db))
    (replace_table "raw" "player_stats" (stored S)
       (replace_table "raw" "players" (stored P) (tables db))).

(** The databases a run can leave behind when it started from [db0]. *)
Definition partial (P S : DataFrame) (db0 db : Database) : Prop :=
  db = db0 ∨ db = with_namespace db0 ∨ db = with_players P db0 ∨ db = loaded P S db0.

(** *** Identifiers and the catalog *)

Lemma lower_ascii_idemp (c : ascii) : lower_ascii (lower_ascii c) = lower_ascii c.
Proof. by destruct c as [[] [] [] [] [] [] [] []]. Qed.

Lemma lower_idemp (s : string) : lower (lower s) = lower s.
Proof. induction s as [|c s IH]; cbn; [done|]. by rewrite lower_ascii_idemp, IH. Qed.

Lemma fold_key_idemp (k : string * string) : fold_key (fold_key k) = fold_key k.
Proof. destruct k as [s t]. unfold fold_key. cbn. by rewrite !lower_idemp. Qed.

Lemma lookup_replace_table (s t : string) (tbl : DataFrame)
    (tb : gmap (string * string) DataFrame) (k : string * string) :
  replace_table s t tbl tb !! k =
  if decide (fold_key k = (lower s, lower t))
  then (if decide (k = (lower s, lower t)) then Some tbl else None)
  else tb !! k.
Proof.
  clear nba_stats resolve open_fault store_fault stored.
  unfold replace_table. destruct (decide (k = (lower s, lower t))) as [->|Hk].
  - rewrite lookup_insert_eq, decide_True; [done|].
    unfold fold_key. cbn. by rewrite !lower_idemp.
  - rewrite lookup_insert_ne by done. rewrite map_lookup_filter.
    destruct (tb !! k) as [x|]; cbn; case_decide as Hf; try done.
    + by rewrite option_guard_False by (cbn; tauto).
    + by rewrite option_guard_True.
Qed.

Lemma lookup_replace_players (tbl : DataFrame) (tb : gmap (string * string) DataFrame)
    (k : string * string) :
  replace_table "raw" "players" tbl tb !! k =
  if decide (fold_key k = ("raw", "players"))
  then (if decide (k = ("raw", "players")) then Some tbl else None)
  else tb !! k.
Proof.
  clear nba_stats resolve open_fault store_fault stored.
  exact (lookup_replace_table "raw" "players" tbl tb k). Qed.

Lemma lookup_replace_stats (tbl : DataFrame) (tb : gmap (string * string) DataFrame)
    (k : string * string) :
  replace_table "raw" "player_stats" tbl tb !! k =
  if decide (fold_key k = ("raw", "player_stats"))
  then (if decide (k = ("raw", "player_stats")) then Some tbl else None)
  else tb !! k.
Proof.
  clear nba_stats resolve open_fault store_fault stored.
  exact (lookup_replace_table "raw" "player_stats" tbl tb k). Qed.

(** Goals about the two tables after some replacements, key by key. *)
Ltac by_key :=
  repeat first
    [ rewrite lookup_replace_stats | rewrite lookup_replace_players | case_decide ];
  simplify_eq; try done.

Lemma players_after_stats (x y : DataFrame) (tb : gmap (string * string) DataFrame) :
  replace_table "raw" "player_stats" y (replace_table "raw" "players" x tb)
    !! ("raw", "players") = Some x.
Proof. clear nba_stats resolve open_fault store_fault stored. by_key. Qed.


Lemma players_after_players (x : DataFrame) (tb : gmap (string * string) DataFrame) :
  replace_table "raw" "players" x tb !! ("raw", "players") = Some x.
Proof. clear nba_stats resolve open_fault store_fault stored. by_key. Qed.

Lemma stats_after_players (x : DataFrame) (tb : gmap (string * string) DataFrame) :
  replace_table "raw" "players" x tb !! ("raw", "player_stats") =
  tb !! ("raw", "player_stats").
Proof. clear nba_stats resolve open_fault store_fault stored. by_key. Qed.

Lemma has_schema_add (s : string) (db : Database) : has_schema (add_schema s db) s.
Proof.
  clear nba_stats resolve open_fault store_fault stored.
  unfold has_schema, add_schema. cbn. apply elem_of_map. exists (lower s).
  split; [by rewrite lower_idemp|set_solver].
Qed.

Lemma has_schema_with_namespace (db : Database) : has_schema (with_namespace db) "raw".
Proof.
  clear nba_stats resolve open_fault store_fault stored.
  unfold with_namespace. case_decide; [done|apply has_schema_add].
Qed.

Lemma with_namespace_has (db : Database) : has_schema db "raw" → with_namespace db = db.
Proof. intros H. unfold with_namespace. by rewrite decide_True. Qed.

Lemma schemas_with_namespace (db : Database) : schemas db ⊆ schemas (with_namespace db).
Proof.
  clear nba_stats resolve open_fault store_fault stored.
  unfold with_namespace, add_schema. case_decide; cbn; set_solver. Qed.

Lemma tables_with_namespace (db : Database) : tables (with_namespace db) = tables db.
Proof. unfold with_namespace. by case_decide. Qed.

(** *** The loader unfolded *)

Lemma load_to_duckdb_eq (P S : DataFrame) (db_path : option string) (w : World) :
  let path := dest db_path in
  load_to_duckdb P S db_path w =
  match open_fault path with
  | Some e => (w, inl e)
  | None =>
      let db0 := opened w path in
      match run_stmt q_schema db0 with
      | inl e => (after w path [q_schema] db0, inl e)
      | inr db1 =>
          match run_stmt (q_players P) db1 with
          | inl e => (after w path [q_schema; q_players P] db1, inl e)
          | inr db2 =>
              match run_stmt (q_stats S) db2 with
              | inl e => (after w path [q_schema; q_players P; q_stats S] db2, inl e)
              | inr db3 => (after w path [q_schema; q_players P; q_stats S] db3, inr tt)
              end
          end
      end
  end.
Proof.
  unfold load_to_duckdb, with_connect, opened, after, q_schema, q_players, q_stats, dest.
  unfold mbind, M_bind, bind, connect, execute, close, emit, write_file. cbv zeta.
  generalize (resolve (default default_db_path db_path)). intros path. cbn.
  destruct (open_fault path); [done|].
  destruct (files w !! path) as [db|] eqn:Hf; cbn;
    rewrite ?Hf, ?lookup_insert_eq; cbn;
    (destruct (run_stmt _ _) as [e1|db1]; cbn;
     [|rewrite ?lookup_insert_eq; cbn; destruct (run_stmt _ db1) as [e2|db2]; cbn;
       [|rewrite ?lookup_insert_eq; cbn; destruct (run_stmt _ db2) as [e3|db3]; cbn]]);
    f_equal; f_equal;
    rewrite ?insert_insert_eq, <- ?(assoc_L (++)); cbn; try done;
    symmetry; by apply insert_id.
Qed.

(** *** What one statement does *)

Lemma run_stmt_schema_state (db db1 : Database) :
  run_stmt q_schema db = inr db1 → db1 = with_namespace db.
Proof.
  unfold run_stmt, q_schema, with_namespace. destruct (store_fault _ _); [done|].
  case_decide; by intros [= <-].
Qed.

Lemma run_stmt_schema (db db1 : Database) :
  run_stmt q_schema db = inr db1 →
  has_schema db1 "raw" ∧ tables db1 = tables db ∧
  (has_schema db "raw" → db1 = db).
Proof.
  intros ->%run_stmt_schema_state. split; [apply has_schema_with_namespace|].
  split; [|apply with_namespace_has].
  unfold with_namespace. by case_decide.
Qed.

Lemma run_stmt_table (s t : string) (df : DataFrame) (db db1 : Database) :
  run_stmt (CreateOrReplaceTableAs s t df) db = inr db1 →
  has_schema db s ∧
  db1 = mkDatabase (schemas db) (replace_table s t (stored df) (tables db)).
Proof.
  unfold run_stmt. destruct (store_fault _ _); [done|].
  case_decide; [|done]. by intros [= <-].
Qed.

Lemma run_stmt_table_error (s t : string) (df : DataFrame) (db : Database) (e : Error) :
  has_schema db s →
  run_stmt (CreateOrReplaceTableAs s t df) db = inl e →
  store_fault (CreateOrReplaceTableAs s t df) db = Some e.
Proof.
  intros Hs. unfold run_stmt. destruct (store_fault _ _); [by intros [= <-]|].
  by case_decide.
Qed.

Lemma run_stmt_schema_error (db : Database) (e : Error) :
  run_stmt q_schema db = inl e → store_fault q_schema db = Some e.
Proof.
  unfold run_stmt, q_schema. destruct (store_fault _ _); [by intros [= <-]|].
  by case_decide.
Qed.

Lemma run_stmt_no_fault_schema (db : Database) :
  store_fault q_schema db = None →
  run_stmt q_schema db = inr (with_namespace db).
Proof. unfold run_stmt, q_schema, with_namespace. intros ->. by case_decide. Qed.

Lemma run_stmt_no_fault_table (s t : string) (df : DataFrame) (db : Database) :
  store_fault (CreateOrReplaceTableAs s t df) db = None →
  has_schema db s →
  run_stmt (CreateOrReplaceTableAs s t df) db =
  inr (mkDatabase (schemas db) (replace_table s t (stored df) (tables db))).
Proof. unfold run_stmt. intros -> ?. by case_decide. Qed.

Lemma table_at_after (w : World) (path : string) (qs : list Stmt)
    (db : Database) (s t : string) :
  table_at (after w path qs db) path s t = tables db !! (lower s, lower t).
Proof. unfold table_at, after. cbn. by rewrite lookup_insert_eq. Qed.

Lemma table_at_opened (w : World) (path s t : string) :
  table_at w path s t = tables (opened w path) !! (lower s, lower t).
Proof. unfold table_at, opened. by destruct (files w !! path). Qed.

Lemma opened_after (w : World) (path : string) (qs : list Stmt) (db : Database) :
  opened (after w path qs db) path = db.
Proof. unfold opened, after. cbn. by rewrite lookup_insert_eq. Qed.

(** A run that returned went through all three statements. *)
Lemma load_to_duckdb_ok (P S : DataFrame) (db_path : option string) (w w' : World) :
  load_to_duckdb P S db_path w = (w', inr tt) →
  ∃ db1 db2 db3,
    run_stmt q_schema (opened w (dest db_path)) = inr db1 ∧
    run_stmt (q_players P) db1 = inr db2 ∧
    run_stmt (q_stats S) db2 = inr db3 ∧
    w' = after w (dest db_path) [q_schema; q_players P; q_stats S] db3.
Proof.
  rewrite load_to_duckdb_eq. cbv zeta.
  destruct (open_fault _); [done|].
  destruct (run_stmt q_schema _) as [|db1] eqn:H1; [done|].
  destruct (run_stmt (q_players P) _) as [|db2] eqn:H2; [done|].
  destruct (run_stmt (q_stats S) _) as [|db3] eqn:H3; [done|].
  intros [= <-]. by exists db1, db2, db3.
Qed.

Lemma load_to_duckdb_ok_after (P S : DataFrame) (db_path : option string) (w w' : World) :
  load_to_duckdb P S db_path w = (w', inr tt) →
  w' = after w (dest db_path) [q_schema; q_players P; q_stats S]
         (loaded P S (opened w (dest db_path))).
Proof.
  intros (db1 & db2 & db3 & H1 & H2 & H3 & ->)%load_to_duckdb_ok.
  apply run_stmt_schema_state in H1 as ->.
  apply run_stmt_table in H2 as [_ ->]. apply run_stmt_table in H3 as [_ ->].
  cbn. by rewrite tables_with_namespace.
Qed.

Lemma load_to_duckdb_ok_files (P S : DataFrame) (db_path : option string) (w w' : World) :
  load_to_duckdb P S db_path w = (w', inr tt) →
  files w' = <[dest db_path := loaded P S (opened w (dest db_path))]> (files w).
Proof. by intros ->%load_to_duckdb_ok_after. Qed.

Lemma load_to_duckdb_reach (P S : DataFrame) (db_path : option string) (w : World) :
  open_fault (dest db_path) = None →
  ∃ db, partial P S (opened w (dest db_path)) db ∧
        files (load_to_duckdb P S db_path w).1 = <[dest db_path := db]> (files w).
Proof.
  intros Ho. rewrite load_to_duckdb_eq. cbv zeta. rewrite Ho. unfold partial.
  destruct (run_stmt q_schema _) as [|db1] eqn:H1; cbn.
  { eexists; split; [by left|done]. }
  apply run_stmt_schema_state in H1 as ->.
  destruct (run_stmt (q_players P) _) as [|db2] eqn:H2; cbn.
  { eexists; split; [right; by left|done]. }
  apply run_stmt_table in H2 as [_ ->].
  destruct (run_stmt (q_stats S) _) as [|db3] eqn:H3; cbn.
  { eexists; split; [right; right; left|done].
    unfold with_players. by rewrite tables_with_namespace. }
  apply run_stmt_table in H3 as [_ ->].
  eexists; split; [do 3 right|done].
  unfold loaded. cbn. by rewrite tables_with_namespace.
Qed.

Lemma load_to_duckdb_closed (P S : DataFrame) (db_path : option string) (w : World) (e : Error) :
  open_fault (dest db_path) = Some e → load_to_duckdb P S db_path w = (w, inl e).
Proof. intros Ho. rewrite load_to_duckdb_eq. cbv zeta. by rewrite Ho. Qed.

(** The three statements change nothing in a database they have filled. *)
Lemma loaded_partial (P S : DataFrame) (db0 db : Database) :
  partial P S db0 db → loaded P S db = loaded P S db0.
Proof.
  clear nba_stats resolve open_fault store_fault.
  unfold partial, loaded, with_players.
  intros [-> | [-> | [-> | ->]]]; [done| | |].
  - rewrite (with_namespace_has (with_namespace db0)) by apply has_schema_with_namespace.
    by rewrite tables_with_namespace.
  - rewrite with_namespace_has by apply has_schema_with_namespace. cbn. f_equal.
    apply map_eq. intros k. by_key.
  - rewrite with_namespace_has by apply has_schema_with_namespace. cbn. f_equal.
    apply map_eq. intros k. by_key.
Qed.

Lemma partial_of_loaded (P S : DataFrame) (db0 db : Database) :
  partial P S (loaded P S db0) db → db = loaded P S db0.
Proof.
  clear nba_stats resolve open_fault store_fault.
  assert (with_namespace (loaded P S db0) = loaded P S db0) as Hn.
  { apply with_namespace_has, has_schema_with_namespace. }
  unfold partial. intros [-> | [-> | [-> | ->]]]; [done|done| |].
  - unfold with_players. rewrite Hn. unfold loaded at 2 3. cbn. unfold loaded. f_equal.
    apply map_eq. intros k. by_key.
  - unfold loaded at 1. rewrite Hn. unfold loaded at 1 3. cbn. f_equal.
    apply map_eq. intros k. by_key.
Qed.

(** *** Runs that return *)


(** C4: when a call of [load_to_duckdb] returns without error, calling it
    again with the same two DataFrames and the same destination leaves the
    database files as the first call left them; this holds whether or not
    the second call itself runs into an engine error. *)
Theorem load_twice_same_state (P S : DataFrame) (db_path : option string) (w : World) :
  (load_to_duckdb P S db_path w).2 = inr tt →
  files ((load_to_duckdb P S db_path;; load_to_duckdb P S db_path) w).1 =
  files (load_to_duckdb P S db_path w).1.
Proof.
  unfold mbind, M_bind, bind.
  destruct (load_to_duckdb P S db_path w) as [w1 [e|[]]] eqn:Hrun; cbn; [done|].
  intros _. apply load_to_duckdb_ok_after in Hrun as ->.
  destruct (open_fault (dest db_path)) as [e|] eqn:Ho.
  { by rewrite (load_to_duckdb_closed P S db_path _ e Ho). }
  destruct (load_to_duckdb_reach P S db_path
              (after w (dest db_path) [q_schema; q_players P; q_stats S]
                 (loaded P S (opened w (dest db_path)))) Ho) as (db & Hdb & ->).
  rewrite opened_after in Hdb. apply partial_of_loaded in Hdb as ->.
  unfold after. cbn. by rewrite insert_insert_eq.
Qed.

(** C5: when the file opens, the namespace statement and the replacement
    of [raw.players] succeed and the replacement of [raw.player_stats]
    raises, [load_to_duckdb] raises that error, [raw.players] holds the
    engine's reading of the new players DataFrame and [raw.player_stats] is
    what it was before the call (absent if it was absent): nothing is
    rolled back. *)
Theorem stats_failure_keeps_new_players (P S : DataFrame) (db_path : option string)
    (w : World) (db1 db2 : Database) (e : Error) :
  open_fault (dest db_path) = None →
  run_stmt q_schema (opened w (dest db_path)) = inr db1 →
  run_stmt (q_players P) db1 = inr db2 →
  run_stmt (q_stats S) db2 = inl e →
  let w' := (load_to_duckdb P S db_path w).1 in
  (load_to_duckdb P S db_path w).2 = inl e ∧
  table_at w' (dest db_path) "raw" "players" = Some (stored P) ∧
  table_at w' (dest db_path) "raw" "player_stats" =
    table_at w (dest db_path) "raw" "player_stats".
Proof.
  intros Ho H1 H2 H3. rewrite load_to_duckdb_eq. cbv zeta.
  rewrite Ho, H1, H2, H3. cbn. split; [done|].
  rewrite !table_at_after, (table_at_opened w).
  apply run_stmt_schema in H1 as (_ & <- & _).
  apply run_stmt_table in H2 as [_ ->]. cbn. split.
  - apply players_after_players.
  - apply stats_after_players.
Qed.

(** *** Runs on an engine that accepts the statements *)

Lemma load_to_duckdb_accepts (P S : DataFrame) (db_path : option string) (w : World) :
  open_fault (dest db_path) = None →
  store_fault q_schema (opened w (dest db_path)) = None →
  (∀ db, store_fault (q_players P) db = None) →
  (∀ db, store_fault (q_stats S) db = None) →
  load_to_duckdb P S db_path w =
  (after w (dest db_path) [q_schema; q_players P; q_stats S]
     (loaded P S (opened w (dest db_path))), inr tt).
Proof.
  intros Ho H1 H2 H3. rewrite load_to_duckdb_eq. cbv zeta. rewrite Ho.
  rewrite run_stmt_no_fault_schema by done.
  unfold q_players, q_stats in *.
  rewrite run_stmt_no_fault_table by (done || apply has_schema_with_namespace).
  rewrite run_stmt_no_fault_table by (done || apply has_schema_with_namespace).
  cbn. unfold loaded. by rewrite tables_with_namespace.
Qed.

Lemma load_to_duckdb_no_fault (P S : DataFrame) (db_path : option string) (w : World) :
  open_fault (dest db_path) = None →
  (∀ q db, store_fault q db = None) →
  load_to_duckdb P S db_path w =
  (after w (dest db_path) [q_schema; q_players P; q_stats S]
     (loaded P S (opened w (dest db_path))), inr tt).
Proof. intros Ho Hs. by apply load_to_duckdb_accepts. Qed.

Lemma load_to_duckdb_runs (P S : DataFrame) (db_path : option string) (w : World) :
  open_fault (dest db_path) = None →
  (∀ q db, store_fault q db = None) →
  (load_to_duckdb P S db_path w).2 = inr tt ∧
  files (load_to_duckdb P S db_path w).1 =
    <[dest db_path := loaded P S (opened w (dest db_path))]> (files w).
Proof. intros Ho Hs. by rewrite load_to_duckdb_no_fault. Qed.

(** X7: the loader raises nothing of its own: an error that comes out of it
    was raised by the engine, on opening the file or on a statement; in
    particular the table statements never meet a missing namespace. *)
Lemma load_to_duckdb_raises_engine_errors (P S : DataFrame)
    (db_path : option string) (w : World) (e : Error) :
  (load_to_duckdb P S db_path w).2 = inl e →
  open_fault (dest db_path) = Some e ∨ ∃ q db, store_fault q db = Some e.
Proof.
  rewrite load_to_duckdb_eq. cbv zeta.
  destruct (open_fault _) as [e0|]; [intros [= ->]; by left|].
  destruct (run_stmt q_schema _) as [e1|db1] eqn:H1.
  { intros [= ->]. right. eauto using run_stmt_schema_error. }
  apply run_stmt_schema in H1 as (Hr & _ & _).
  destruct (run_stmt (q_players P) _) as [e2|db2] eqn:H2.
  { intros [= ->]. right. exists (q_players P), db1.
    by apply run_stmt_table_error. }
  apply run_stmt_table in H2 as [_ ->].
  destruct (run_stmt (q_stats S) _) as [e3|db3] eqn:H3; [|done].
  intros [= ->]. right. eexists (q_stats S), _.
  by apply run_stmt_table_error in H3.
Qed.

(** C6, as amended: with a players DataFrame that has no rows but at least
    one column, a stats DataFrame with at least one column, and an engine
    whose only rejection is of a frame without columns and whose reading of
    a frame has one row per row of the frame, [load_to_duckdb] returns
    without error and [raw.players] exists afterwards with no rows; the
    loader validates nothing. *)
Theorem load_empty_players (P S : DataFrame) (db_path : option string) (w : World) :
  rows P = [] → columns P ≠ [] → columns S ≠ [] →
  open_fault (dest db_path) = None →
  rejects_only_columnless store_fault →
  keeps_row_count stored →
  let w' := (load_to_duckdb P S db_path w).1 in
  (load_to_duckdb P S db_path w).2 = inr tt ∧
  ∃ tbl, table_at w' (dest db_path) "raw" "players" = Some tbl ∧ rows tbl = [].
Proof.
  intros Hrows HP HS Ho Hrej Hkeep.
  assert (∀ q db, (∀ s t src, q = CreateOrReplaceTableAs s t src → columns src ≠ []) →
                  store_fault q db = None) as Hok.
  { intros q db Hq. destruct (store_fault q db) as [e|] eqn:He; [|done].
    apply Hrej in He as (s & t & src & -> & Hc). by destruct (Hq s t src). }
  rewrite load_to_duckdb_accepts; first last.
  - intros db. apply Hok. by intros s t src [= _ _ <-].
  - intros db. apply Hok. by intros s t src [= _ _ <-].
  - apply Hok. by intros s t src [=].
  - done.
  - cbn. split; [done|]. exists (stored P). rewrite table_at_after. unfold loaded. cbn.
    split; [apply players_after_stats|].
    apply nil_length_inv. by rewrite Hkeep, Hrows.
Qed.

(** C9: with an engine that raises no error, [load_to_duckdb] returns
    without error and the database of the destination file has the
    namespace [raw] afterwards: when the database had it already, in any
    spelling, the namespace statement leaves the database as it is and the
    schemas are unchanged; when it had not (or the file was new), the schemas
    afterwards are the old ones and [raw].  The namespace statement is sent
    first, before the two table replacements. *)
Theorem existing_namespace_is_accepted (P S : DataFrame) (db_path : option string)
    (w : World) :
  open_fault (dest db_path) = None →
  (∀ q d, store_fault q d = None) →
  let db0 := opened w (dest db_path) in
  let w' := (load_to_duckdb P S db_path w).1 in
  (load_to_duckdb P S db_path w).2 = inr tt ∧
  (∃ db, files w' !! dest db_path = Some db ∧ has_schema db "raw" ∧
         (has_schema db0 "raw" → schemas db = schemas db0) ∧
         (¬ has_schema db0 "raw" → schemas db = {["raw"]} ∪ schemas db0)) ∧
  (has_schema db0 "raw" → run_stmt q_schema db0 = inr db0) ∧
  trace w' = trace w ++
    [EvConnect (dest db_path); EvExecute q_schema; EvExecute (q_players P);
     EvExecute (q_stats S); EvClose (dest db_path)].
Proof.
  intros Ho Hs. cbv zeta. rewrite load_to_duckdb_no_fault by done. cbn.
  split; [done|]. split; [|split; [|done]].
  - exists (loaded P S (opened w (dest db_path))). rewrite lookup_insert_eq.
    split; [done|]. split; [apply has_schema_with_namespace|].
    unfold loaded, with_namespace. cbn. split; intros H; case_decide; done.
  - intros H. rewrite run_stmt_no_fault_schema by done. by rewrite with_namespace_has.
Qed.

(** *** Runs that raise *)

(** C10: when the namespace statement raises, or it succeeds and the
    replacement of [raw.players] raises, [load_to_duckdb] raises that error,
    both [raw.players] and [raw.player_stats] are what they were before the
    call, and the statements sent are a prefix of namespace, players: the
    replacement of [raw.player_stats] was never sent. *)
Theorem early_failure_keeps_both_tables (P S : DataFrame) (db_path : option string)
    (w : World) (e : Error) :
  open_fault (dest db_path) = None →
  run_stmt q_schema (opened w (dest db_path)) = inl e ∨
  (∃ db1, run_stmt q_schema (opened w (dest db_path)) = inr db1 ∧
          run_stmt (q_players P) db1 = inl e) →
  let w' := (load_to_duckdb P S db_path w).1 in
  (load_to_duckdb P S db_path w).2 = inl e ∧
  table_at w' (dest db_path) "raw" "players" =
    table_at w (dest db_path) "raw" "players" ∧
  table_at w' (dest db_path) "raw" "player_stats" =
    table_at w (dest db_path) "raw" "player_stats" ∧
  ∃ qs, qs `prefix_of` [q_schema; q_players P] ∧
        trace w' = trace w ++
          EvConnect (dest db_path) :: (EvExecute <$> qs) ++ [EvClose (dest db_path)].
Proof.
  intros Ho H. rewrite load_to_duckdb_eq. cbv zeta. rewrite Ho.
  destruct H as [H1|(db1 & H1 & H2)].
  - rewrite H1. cbn. rewrite !table_at_after, !(table_at_opened w).
    repeat split; try done.
    exists [q_schema]. split; [|done]. by exists [q_players P].
  - rewrite H1, H2. cbn. rewrite !table_at_after, !(table_at_opened w).
    apply run_stmt_schema in H1 as (_ & -> & _).
    repeat split; try done.
    by exists [q_schema; q_players P].
Qed.

(** X1: whatever happens, either the file could not be opened and nothing
    was sent, or the events of the run are a connect, a prefix of the
    statements schema, players, player_stats in that order, and a close: a
    later statement goes out only after the earlier ones, and the
    connection is closed whether the run returned or raised. *)
Lemma load_to_duckdb_order (P S : DataFrame) (db_path : option string) (w : World) :
  let w' := (load_to_duckdb P S db_path w).1 in
  trace w' = trace w ∨
  ∃ qs, qs `prefix_of` [q_schema; q_players P; q_stats S] ∧
        trace w' = trace w ++
          EvConnect (dest db_path) :: (EvExecute <$> qs) ++ [EvClose (dest db_path)].
Proof.
  rewrite load_to_duckdb_eq. cbv zeta.
  destruct (open_fault _); [by left|]. right.
  destruct (run_stmt q_schema _) as [|db1]; cbn.
  { exists [q_schema]. split; [|done]. by exists [q_players P; q_stats S]. }
  destruct (run_stmt (q_players P) _) as [|db2]; cbn.
  { exists [q_schema; q_players P]. split; [|done]. by exists [q_stats S]. }
  destruct (run_stmt (q_stats S) _); cbn; by exists [q_schema; q_players P; q_stats S].
Qed.

(** *** What a run leaves alone *)

(** X2: a run whose file cannot be opened raises the engine's error and
    leaves the world as it was: no file is created, no statement is sent. *)
Theorem load_open_failure (P S : DataFrame) (db_path : option string) (w : World) (e : Error) :
  open_fault (dest db_path) = Some e →
  load_to_duckdb P S db_path w = (w, inl e).
Proof. apply load_to_duckdb_closed. Qed.

(** X3: whatever the outcome of a run, every database file other than the
    one the destination path names is as it was, and so is every table of
    the destination whose name, compared without regard to case, is neither
    [raw.players] nor [raw.player_stats]. *)
Theorem load_leaves_the_rest (P S : DataFrame) (db_path : option string) (w : World) :
  let w' := (load_to_duckdb P S db_path w).1 in
  (∀ file, file ≠ dest db_path → files w' !! file = files w !! file) ∧
  (∀ k, fold_key k ≠ ("raw", "players") → fold_key k ≠ ("raw", "player_stats") →
        tables (opened w' (dest db_path)) !! k = tables (opened w (dest db_path)) !! k).
Proof.
  cbv zeta. destruct (open_fault (dest db_path)) as [e|] eqn:Ho.
  { by rewrite (load_to_duckdb_closed P S db_path w e Ho). }
  destruct (load_to_duckdb_reach P S db_path w Ho) as (db & Hdb & Hf).
  split.
  - intros file Hp. rewrite Hf. by rewrite lookup_insert_ne.
  - intros k Hpl Hst. unfold opened at 1. rewrite Hf, lookup_insert_eq. cbn.
    destruct Hdb as [-> | [-> | [-> | ->]]]; cbn;
      rewrite ?tables_with_namespace; by_key.
Qed.

(** X4: a run that returns leaves exactly this world: the destination
    database is the one it started from with the namespace [raw] added if
    it was missing and the two tables replaced by the engine's reading of
    the two frames, every other file is as before, and the events are
    connect, the three statements in order, close. *)
Theorem load_success_world (P S : DataFrame) (db_path : option string) (w w' : World) :
  load_to_duckdb P S db_path w = (w', inr tt) →
  w' = mkWorld (<[dest db_path := loaded P S (opened w (dest db_path))]> (files w))
         (trace w ++ [EvConnect (dest db_path); EvExecute q_schema;
                      EvExecute (q_players P); EvExecute (q_stats S);
                      EvClose (dest db_path)]).
Proof. by intros ->%load_to_duckdb_ok_after. Qed.

(** X5: on a destination that does not exist yet, with an engine that raises
    nothing, the run returns and the new database holds the namespace [raw]
    with the two tables, each the engine's reading of its frame, and nothing
    else. *)
Theorem load_fresh_destination (P S : DataFrame) (db_path : option string) (w : World) :
  files w !! dest db_path = None →
  open_fault (dest db_path) = None →
  (∀ q db, store_fault q db = None) →
  (load_to_duckdb P S db_path w).2 = inr tt ∧
  files (load_to_duckdb P S db_path w).1 !! dest db_path =
    Some (mkDatabase {["raw"]}
            (<[("raw", "player_stats") := stored S]>
               {[ ("raw", "players") := stored P ]})).
Proof.
  intros Hnone Ho Hs. destruct (load_to_duckdb_runs P S db_path w Ho Hs) as [Hr Hf].
  split; [done|]. rewrite Hf, lookup_insert_eq. f_equal.
  unfold opened. rewrite Hnone. unfold loaded. cbn. by f_equal.
Qed.

(** X6: after any run that opened the destination, returned or raised, the
    database file exists, still has every namespace it had before, and for
    every table it had before still has a table of that name, compared
    without regard to case: the loader drops nothing but what it replaces. *)
Theorem load_never_drops (P S : DataFrame) (db_path : option string) (w : World) :
  open_fault (dest db_path) = None →
  ∃ db, files (load_to_duckdb P S db_path w).1 !! dest db_path = Some db ∧
        schemas (opened w (dest db_path)) ⊆ schemas db ∧
        ∀ k, is_Some (tables (opened w (dest db_path)) !! k) →
             ∃ k', fold_key k' = fold_key k ∧ is_Some (tables db !! k').
Proof.
  intros Ho. destruct (load_to_duckdb_reach P S db_path w Ho) as (db & Hdb & Hf).
  exists db. rewrite Hf, lookup_insert_eq. split; [done|].
  assert (∀ k, is_Some (tables (opened w (dest db_path)) !! k) →
               tables db !! k = tables (opened w (dest db_path)) !! k ∨
               is_Some (tables db !! fold_key k)) as Hk.
  { intros k Hsome.
    destruct Hdb as [-> | [-> | [-> | ->]]]; cbn; rewrite ?tables_with_namespace;
      [by left|by left| |].
    - destruct (decide (fold_key k = ("raw", "players"))) as [E|E].
      + right. rewrite E. by_key.
      + left. by_key.
    - destruct (decide (fold_key k = ("raw", "players"))) as [E|E];
        [right; rewrite E; by_key|].
      destruct (decide (fold_key k = ("raw", "player_stats"))) as [E'|E'];
        [right; rewrite E'; by_key|].
      left. by_key. }
  split.
  - destruct Hdb as [-> | [-> | [-> | ->]]]; cbn; auto using schemas_with_namespace.
  - intros k Hsome. destruct (Hk k Hsome) as [Heq|Hf'].
    + exists k. split; [done|]. by rewrite Heq.
    + exists (fold_key k). split; [apply fold_key_idemp|done].
Qed.

(** *** Runs one after the other *)

(** X8: with an engine that raises nothing, two runs in a row leave the
    files as the second run alone would: nothing of the first run's data
    survives the second. *)
Theorem load_last_write_wins (P1 S1 P2 S2 : DataFrame) (db_path : option string) (w : World) :
  open_fault (dest db_path) = None →
  (∀ q db, store_fault q db = None) →
  files ((load_to_duckdb P1 S1 db_path;; load_to_duckdb P2 S2 db_path) w).1 =
  files (load_to_duckdb P2 S2 db_path w).1.
Proof.
  intros Ho Hs. unfold mbind, M_bind, bind.
  rewrite (load_to_duckdb_no_fault P1 S1 db_path w) by done. cbv beta iota.
  rewrite !(load_to_duckdb_no_fault P2 S2) by done.
  rewrite opened_after. unfold after. cbn [fst files]. rewrite insert_insert_eq.
  f_equal. unfold loaded. cbn.
  rewrite (with_namespace_has (mkDatabase _ _)) by apply has_schema_with_namespace.
  cbn. f_equal. apply map_eq. intros k. by_key.
Qed.

(** X9: runs on two destinations that are different files do not
    interfere: with an engine that raises nothing, the files end up the
    same in either order. *)
Theorem load_destinations_independent (P S P' S' : DataFrame) (p p' : string) (w : World) :
  resolve p ≠ resolve p' →
  open_fault (resolve p) = None → open_fault (resolve p') = None →
  (∀ q db, store_fault q db = None) →
  files ((load_to_duckdb P S (Some p);; load_to_duckdb P' S' (Some p')) w).1 =
  files ((load_to_duckdb P' S' (Some p');; load_to_duckdb P S (Some p)) w).1.
Proof.
  intros Hne Ho Ho' Hs. unfold mbind, M_bind, bind.
  rewrite (load_to_duckdb_no_fault P S (Some p) w) by done.
  rewrite (load_to_duckdb_no_fault P' S' (Some p') w) by done. cbv beta iota.
  rewrite (load_to_duckdb_no_fault P' S' (Some p')) by done.
  rewrite (load_to_duckdb_no_fault P S (Some p)) by done.
  unfold dest, opened, after. cbn.
  rewrite lookup_insert_ne by done. rewrite (lookup_insert_ne _ (resolve p')) by done.
  by apply insert_insert_ne.
Qed.

(** *** The fetchers *)

Lemma fetch_player_metadata_eq (w : World) :
  fetch_player_metadata w =
  (emit (EvRequest (CommonAllPlayersReq 0)) w,
   match nba_stats (CommonAllPlayersReq 0) with
   | inl e => inl e
   | inr _ => inl (ValueError "DataFrame constructor not properly called!")
   end).
Proof.
  unfold fetch_player_metadata, CommonAllPlayers, send, mbind, M_bind, bind.
  by destruct (nba_stats _).
Qed.

(** The directory fetcher hands no table to its caller, whatever the
    service answers. *)
Lemma fetch_player_metadata_never_returns (w : World) (df : DataFrame) :
  (fetch_player_metadata w).2 ≠ inr df.
Proof. rewrite fetch_player_metadata_eq. cbn. by destruct (nba_stats _). Qed.

Lemma fetch_player_stats_eq (season : option string) (w : World) :
  let r := LeagueDashPlayerStatsReq (default default_season season) in
  fetch_player_stats season w =
  (emit (EvRequest r) w,
   match nba_stats r with
   | inl e => inl e
   | inr sets => index0 sets
   end).
Proof.
  unfold fetch_player_stats, LeagueDashPlayerStats, send, mbind, M_bind, bind.
  cbv zeta. destruct (nba_stats _) as [e|[|d sets]]; done.
Qed.

(** C2: for a season label the service answers with at least one result
    set, [fetch_player_stats] returns the first result set, whatever the
    others are; nothing but the season is an argument. *)
Theorem fetch_player_stats_first_result_set (S : string) (first : DataFrame)
    (rest : list DataFrame) (w : World) :
  nba_stats (LeagueDashPlayerStatsReq S) = inr (first :: rest) →
  fetch_player_stats (Some S) w =
  (emit (EvRequest (LeagueDashPlayerStatsReq S)) w, inr first).
Proof. intros H. rewrite fetch_player_stats_eq. cbn. by rewrite H. Qed.

(** C7, as amended: a call of [fetch_player_stats] without a season is a
    call with the fixed label "2024-25", and that label is the season of the
    request sent, whatever the date. *)
Theorem fetch_player_stats_default_season (w : World) :
  fetch_player_stats None w = fetch_player_stats (Some "2024-25") w ∧
  trace (fetch_player_stats None w).1 =
    trace w ++ [EvRequest (LeagueDashPlayerStatsReq "2024-25")].
Proof. split; [done|]. by rewrite fetch_player_stats_eq. Qed.

(** C8: every call of [fetch_player_metadata], whatever the service and
    the world, sends exactly one request, for all players with the
    only-current-season flag at 0 (historical players included); the
    function takes no argument that could change it. *)
Theorem fetch_player_metadata_requests_historical (w : World) :
  trace (fetch_player_metadata w).1 = trace w ++ [EvRequest (CommonAllPlayersReq 0)] ∧
  includes_historical (CommonAllPlayersReq 0) = true.
Proof. by rewrite fetch_player_metadata_eq. Qed.

(** The script as a whole stops at the first fetch and never reaches the
    loader: no file is opened or changed. *)
Lemma main_stops_at_directory (w : World) :
  (∃ e, (main w).2 = inl e) ∧ files (main w).1 = files w.
Proof.
  unfold main, print, mbind, M_bind, bind. cbn.
  rewrite fetch_player_metadata_eq. cbn.
  destruct (nba_stats _); eauto.
Qed.

(** *** More on the fetchers and the script *)

(** X11: whatever the service answers, each fetcher changes the world by one
    request and nothing else: the season fetcher sends the caller's string
    as it is, unchecked, and neither fetcher touches a file. *)
Theorem fetchers_send_one_request (season : option string) (w : World) :
  (fetch_player_stats season w).1 =
    emit (EvRequest (LeagueDashPlayerStatsReq (default "2024-25" season))) w ∧
  (fetch_player_metadata w).1 = emit (EvRequest (CommonAllPlayersReq 0)) w.
Proof. by rewrite fetch_player_stats_eq, fetch_player_metadata_eq. Qed.

(** X13: an error of the service on the season request comes out of
    [fetch_player_stats] as it is. *)
Theorem fetch_player_stats_propagates (season : option string) (w : World) (e : Error) :
  nba_stats (LeagueDashPlayerStatsReq (default "2024-25" season)) = inl e →
  (fetch_player_stats season w).2 = inl e.
Proof.
  intros H. rewrite fetch_player_stats_eq. cbn.
  change default_season with "2024-25". by rewrite H.
Qed.

(** X14: a table that [fetch_player_stats] returns is the first result set of
    the service's answer to the request for that season; it returns nothing
    else. *)
Theorem fetch_player_stats_returns_only_first (season : option string) (w : World)
    (df : DataFrame) :
  (fetch_player_stats season w).2 = inr df →
  ∃ rest, nba_stats (LeagueDashPlayerStatsReq (default "2024-25" season)) =
          inr (df :: rest).
Proof.
  rewrite fetch_player_stats_eq. cbn. change default_season with "2024-25".
  destruct (nba_stats _) as [e|[|d rest]]; cbn; [done|done|].
  intros [= ->]. by exists rest.
Qed.

(** X15: an error of the service on the directory request comes out of
    [fetch_player_metadata] as it is. *)
Theorem fetch_player_metadata_propagates (w : World) (e : Error) :
  nba_stats (CommonAllPlayersReq 0) = inl e →
  (fetch_player_metadata w).2 = inl e.
Proof. intros H. rewrite fetch_player_metadata_eq. cbn. by rewrite H. Qed.

(** X16: the script prints its first message, sends the directory request and
    stops there with an error: the season request is never sent, no
    database file is opened or changed, and the closing message is never
    printed. *)
Theorem main_only_requests_directory (w : World) :
  (∃ e, (main w).2 = inl e) ∧
  files (main w).1 = files w ∧
  trace (main w).1 =
    trace w ++ [EvPrint "Fetching player metadata..."; EvRequest (CommonAllPlayersReq 0)].
Proof.
  unfold main, print, mbind, M_bind, bind. cbn.
  rewrite fetch_player_metadata_eq. cbn.
  destruct (nba_stats _); cbn; rewrite <- (assoc_L (++)); eauto.
Qed.

End Pipeline.

(** * A second attempt *)

Section Retry.

Variable resolve : string → string.
Variable stored : DataFrame → DataFrame.

(** The engine as it behaved during the first attempt and during the
    second. *)
Variable open_fault1 open_fault2 : string → option Error.
Variable store_fault1 store_fault2 : Stmt → Database → option Error.

(** X10: when a second run with the same arguments returns, after a first
    attempt that raised at any point (or returned), the files are what a
    single run that returned at once would have left from the original
    files: whatever the first attempt wrote is written again, nothing of it
    is left half done. *)
Theorem load_retry_same_state (P S : DataFrame) (db_path : option string) (w : World) :
  let w1 := (load_to_duckdb resolve open_fault1 store_fault1 stored P S db_path w).1 in
  (load_to_duckdb resolve open_fault2 store_fault2 stored P S db_path w1).2 = inr tt →
  files (load_to_duckdb resolve open_fault2 store_fault2 stored P S db_path w1).1 =
    <[dest resolve db_path := loaded stored P S (opened w (dest resolve db_path))]>
      (files w).
Proof.
  cbv zeta. intros Hok.
  destruct (load_to_duckdb resolve open_fault2 store_fault2 stored P S db_path _)
    as [w2 [|[]]] eqn:H2; cbn in *; [done|].
  apply load_to_duckdb_ok_files in H2 as ->.
  destruct (open_fault1 (dest resolve db_path)) as [e1|] eqn:Ho.
  { by rewrite (load_to_duckdb_closed resolve open_fault1 store_fault1 stored
                  P S db_path w e1 Ho). }
  destruct (load_to_duckdb_reach resolve open_fault1 store_fault1 stored P S db_path w Ho)
    as (db & Hdb & Hf).
  unfold opened at 1. rewrite Hf, lookup_insert_eq, insert_insert_eq. cbn.
  by rewrite (loaded_partial stored P S _ _ Hdb).
Qed.

End Retry.

(** * Concrete runs *)

Example season_label_2024 : season_label 2024 = "2024-25".
Proof. reflexivity. Qed.

Example season_label_1999 : season_label 1999 = "1999-00".
Proof. reflexivity. Qed.

(** C3: on a service that answers the directory request with one result
    set of three players, [fetch_player_metadata] sends the request and then
    raises: the endpoint object itself, not its result set, goes to the
    DataFrame constructor, and no table comes back. *)
Example fetch_player_metadata_raises_on_sample :
  fetch_player_metadata sample_service w_fresh =
  (mkWorld ∅ [EvRequest (CommonAllPlayersReq 0)],
   inl (ValueError "DataFrame constructor not properly called!")).
Proof. reflexivity. Qed.

(** C7, as stated, fails: in November 2026 the current season is
    "2026-27", and a call without a season does not request it. *)
Example default_season_is_not_current :
  trace (fetch_player_stats sample_service None w_fresh).1 ≠
  [EvRequest (LeagueDashPlayerStatsReq (spec_current_season 2026 11))].
Proof. vm_compute. discriminate. Qed.

(** C6, as stated, fails: a players DataFrame with no rows and no columns
    is an empty table, and on an engine that rejects a frame without
    columns, as DuckDB does, the run raises and leaves no [raw.players]. *)
Example load_rejects_columnless_frame :
  let run := load_to_duckdb as_written opens_fine rejects_columnless as_is
               no_frame stats3 None w_fresh in
  rows no_frame = [] ∧
  run.2 = inl (InvalidInputException "Need a DataFrame with at least one column") ∧
  table_at run.1 "../duckdb/nba.duckdb" "raw" "players" = None.
Proof. repeat split; vm_compute; reflexivity. Qed.

(** Two spellings of one file: the second run replaces what the first
    wrote. *)
Example relative_and_absolute_path :
  files ((load_to_duckdb (from_dir "/srv") opens_fine stores_fine as_is
            old_players old_stats (Some "nba.duckdb");;
          load_to_duckdb (from_dir "/srv") opens_fine stores_fine as_is
            players3 stats3 (Some "/srv/nba.duckdb")) w_fresh).1 =
  files (load_to_duckdb (from_dir "/srv") opens_fine stores_fine as_is
           players3 stats3 (Some "nba.duckdb") w_fresh).1.
Proof. vm_compute. reflexivity. Qed.

Lemma rejects_columnless_only : rejects_only_columnless rejects_columnless.
Proof.
  intros q db e. destruct q as [s|s t src]; cbn; [done|].
  destruct (columns src) eqn:Hc; [|done]. intros _. by exists s, t, src.
Qed.

(** * Witnesses *)


Lemma fetch_player_stats_first_result_set_witness :
  sample_service (LeagueDashPlayerStatsReq "2023-24") = inr (stats3 :: [team_totals]) ∧
  fetch_player_stats sample_service (Some "2023-24") w_fresh =
  (emit (EvRequest (LeagueDashPlayerStatsReq "2023-24")) w_fresh, inr stats3).
Proof.
  split; [reflexivity|].
  apply (fetch_player_stats_first_result_set sample_service "2023-24" stats3
           [team_totals] w_fresh).
  reflexivity.
Defined.

Lemma load_twice_same_state_witness :
  files ((load_to_duckdb as_written opens_fine stores_fine as_is players3 stats3 None;;
          load_to_duckdb as_written opens_fine stores_fine as_is players3 stats3 None)
           w_old).1 =
  files (load_to_duckdb as_written opens_fine stores_fine as_is players3 stats3 None w_old).1.
Proof.
  apply (load_twice_same_state as_written opens_fine stores_fine as_is
           players3 stats3 None w_old).
  vm_compute. reflexivity.
Defined.

Lemma stats_failure_keeps_new_players_witness :
  let run := load_to_duckdb as_written opens_fine (cannot_write "player_stats") as_is
               players3 stats3 (Some sample_path) w_old in
  run.2 = inl (IOException "disk full") ∧
  table_at run.1 sample_path "raw" "players" = Some players3 ∧
  table_at run.1 sample_path "raw" "player_stats" = Some old_stats.
Proof.
  apply (stats_failure_keeps_new_players as_written opens_fine
           (cannot_write "player_stats") as_is
           players3 stats3 (Some sample_path) w_old old_db
           (mkDatabase {["raw"]}
              (replace_table "raw" "players" players3 (tables old_db)))
           (IOException "disk full")).
  - reflexivity.
  - vm_compute. reflexivity.
  - vm_compute. reflexivity.
  - vm_compute. reflexivity.
Defined.

Lemma load_empty_players_witness :
  let run := load_to_duckdb as_written opens_fine rejects_columnless as_is
               no_players stats3 (Some sample_path) w_old in
  rows no_players = [] ∧
  run.2 = inr tt ∧
  ∃ tbl, table_at run.1 sample_path "raw" "players" = Some tbl ∧ rows tbl = [].
Proof.
  split; [reflexivity|].
  apply (load_empty_players as_written opens_fine rejects_columnless as_is
           no_players stats3 (Some sample_path) w_old).
  - reflexivity.
  - discriminate.
  - discriminate.
  - reflexivity.
  - exact rejects_columnless_only.
  - intros df. reflexivity.
Defined.

Lemma existing_namespace_is_accepted_witness :
  let had := load_to_duckdb as_written opens_fine stores_fine as_is players3 stats3
               (Some sample_path) w_old in
  let new := load_to_duckdb as_written opens_fine stores_fine as_is players3 stats3
               (Some sample_path) w_fresh in
  (had.2 = inr tt ∧
   ∃ db, files had.1 !! sample_path = Some db ∧ schemas db = schemas old_db) ∧
  (new.2 = inr tt ∧
   ∃ db, files new.1 !! sample_path = Some db ∧ schemas db = {["raw"]} ∪ ∅).
Proof.
  split.
  - destruct (existing_namespace_is_accepted as_written opens_fine stores_fine as_is
                players3 stats3 (Some sample_path) w_old)
      as (H1 & (db & Hf & _ & Hs & _) & _).
    + reflexivity.
    + intros q d. reflexivity.
    + split; [exact H1|]. exists db. split; [exact Hf|].
      apply Hs. vm_compute. reflexivity.
  - destruct (existing_namespace_is_accepted as_written opens_fine stores_fine as_is
                players3 stats3 (Some sample_path) w_fresh)
      as (H1 & (db & Hf & _ & _ & Hs) & _).
    + reflexivity.
    + intros q d. reflexivity.
    + split; [exact H1|]. exists db. split; [exact Hf|].
      apply Hs. vm_compute. discriminate.
Defined.

Lemma early_failure_keeps_both_tables_witness :
  let run := load_to_duckdb as_written opens_fine (cannot_write "players") as_is
               players3 stats3 (Some sample_path) w_old in
  run.2 = inl (IOException "disk full") ∧
  table_at run.1 sample_path "raw" "players" = Some old_players ∧
  table_at run.1 sample_path "raw" "player_stats" = Some old_stats.
Proof.
  destruct (early_failure_keeps_both_tables as_written opens_fine
              (cannot_write "players") as_is
              players3 stats3 (Some sample_path) w_old (IOException "disk full"))
    as (H1 & H2 & H3 & _).
  - reflexivity.
  - right. exists old_db. split; vm_compute; reflexivity.
  - exact (conj H1 (conj H2 H3)).
Defined.

(** * Witnesses of the further properties *)

Lemma load_open_failure_witness :
  load_to_duckdb as_written locked_file stores_fine as_is players3 stats3 None w_old =
  (w_old, inl (IOException "Could not set lock on file")).
Proof.
  apply (load_open_failure as_written locked_file stores_fine as_is players3 stats3
           None w_old (IOException "Could not set lock on file")).
  reflexivity.
Defined.

Lemma load_success_world_witness :
  (load_to_duckdb as_written opens_fine stores_fine renaming repeated_pts stats3
     (Some sample_path) w_quoted).1 =
  mkWorld (<[sample_path := loaded renaming repeated_pts stats3 quoted_db]> (files w_quoted))
    [EvConnect sample_path; EvExecute q_schema; EvExecute (q_players repeated_pts);
     EvExecute (q_stats stats3); EvClose sample_path].
Proof.
  apply (load_success_world as_written opens_fine stores_fine renaming
           repeated_pts stats3 (Some sample_path) w_quoted).
  vm_compute. reflexivity.
Defined.

Lemma load_fresh_destination_witness :
  (load_to_duckdb as_written opens_fine stores_fine renaming repeated_pts stats3
     None w_fresh).2 = inr tt ∧
  files (load_to_duckdb as_written opens_fine stores_fine renaming repeated_pts stats3
           None w_fresh).1 !! "../duckdb/nba.duckdb" =
    Some (mkDatabase {["raw"]}
            (<[("raw", "player_stats") := stats3]>
               {[ ("raw", "players") :=
                    mkDataFrame ["PLAYER_ID"; "PTS"; "PTS_1"] (rows repeated_pts) ]})).
Proof.
  apply (load_fresh_destination as_written opens_fine stores_fine renaming
           repeated_pts stats3 None w_fresh).
  - reflexivity.
  - reflexivity.
  - intros q db. reflexivity.
Defined.

Lemma load_never_drops_witness :
  ∃ db,
    files (load_to_duckdb as_written opens_fine (cannot_write "player_stats") as_is
             players3 stats3 (Some sample_path) w_quoted).1 !! sample_path = Some db ∧
    schemas quoted_db ⊆ schemas db ∧
    ∀ k, is_Some (tables quoted_db !! k) →
         ∃ k', fold_key k' = fold_key k ∧ is_Some (tables db !! k').
Proof.
  apply (load_never_drops as_written opens_fine (cannot_write "player_stats") as_is
           players3 stats3 (Some sample_path) w_quoted).
  reflexivity.
Defined.

Lemma load_to_duckdb_raises_engine_errors_witness :
  (load_to_duckdb as_written opens_fine (cannot_write "player_stats") as_is
     players3 stats3 (Some sample_path) w_old).2 = inl (IOException "disk full") ∧
  (opens_fine sample_path = Some (IOException "disk full") ∨
   ∃ q db, cannot_write "player_stats" q db = Some (IOException "disk full")).
Proof.
  assert ((load_to_duckdb as_written opens_fine (cannot_write "player_stats") as_is
             players3 stats3 (Some sample_path) w_old).2 = inl (IOException "disk full"))
    as Hrun by (vm_compute; reflexivity).
  split; [exact Hrun|].
  exact (load_to_duckdb_raises_engine_errors as_written opens_fine
           (cannot_write "player_stats") as_is
           players3 stats3 (Some sample_path) w_old (IOException "disk full") Hrun).
Defined.

Lemma load_last_write_wins_witness :
  files ((load_to_duckdb as_written opens_fine stores_fine as_is
            old_players old_stats (Some sample_path);;
          load_to_duckdb as_written opens_fine stores_fine as_is
            players3 stats3 (Some sample_path)) w_fresh).1 =
  files (load_to_duckdb as_written opens_fine stores_fine as_is
           players3 stats3 (Some sample_path) w_fresh).1.
Proof.
  apply (load_last_write_wins as_written opens_fine stores_fine as_is
           old_players old_stats players3 stats3 (Some sample_path) w_fresh).
  - reflexivity.
  - intros q db. reflexivity.
Defined.

Lemma load_destinations_independent_witness :
  files ((load_to_duckdb (from_dir "/srv") opens_fine stores_fine as_is
            players3 stats3 (Some "nba.duckdb");;
          load_to_duckdb (from_dir "/srv") opens_fine stores_fine as_is
            no_players old_stats (Some "/srv/archive.duckdb")) w_fresh).1 =
  files ((load_to_duckdb (from_dir "/srv") opens_fine stores_fine as_is
            no_players old_stats (Some "/srv/archive.duckdb");;
          load_to_duckdb (from_dir "/srv") opens_fine stores_fine as_is
            players3 stats3 (Some "nba.duckdb")) w_fresh).1.
Proof.
  apply (load_destinations_independent (from_dir "/srv") opens_fine stores_fine as_is
           players3 stats3 no_players old_stats "nba.duckdb" "/srv/archive.duckdb"
           w_fresh).
  - vm_compute. discriminate.
  - reflexivity.
  - reflexivity.
  - intros q db. reflexivity.
Defined.

Lemma load_retry_same_state_witness :
  let first := load_to_duckdb as_written opens_fine (cannot_write "player_stats") as_is
                 players3 stats3 (Some sample_path) w_old in
  first.2 = inl (IOException "disk full") ∧
  files (load_to_duckdb as_written opens_fine stores_fine as_is players3 stats3
           (Some sample_path) first.1).1 =
    <[sample_path := loaded as_is players3 stats3 old_db]> (files w_old).
Proof.
  split; [vm_compute; reflexivity|].
  apply (load_retry_same_state as_written as_is opens_fine opens_fine
           (cannot_write "player_stats") stores_fine
           players3 stats3 (Some sample_path) w_old).
  vm_compute. reflexivity.
Defined.

Lemma fetch_player_stats_propagates_witness :
  (fetch_player_stats failing_service None w_fresh).2 = inl (UpstreamError "HTTP 503").
Proof.
  apply (fetch_player_stats_propagates failing_service None w_fresh
           (UpstreamError "HTTP 503")).
  reflexivity.
Defined.

Lemma fetch_player_stats_returns_only_first_witness :
  (fetch_player_stats sample_service (Some "2023-24") w_fresh).2 = inr stats3 ∧
  ∃ rest, sample_service (LeagueDashPlayerStatsReq "2023-24") = inr (stats3 :: rest).
Proof.
  split; [reflexivity|].
  apply (fetch_player_stats_returns_only_first sample_service (Some "2023-24")
           w_fresh stats3).
  reflexivity.
Defined.

Lemma fetch_player_metadata_propagates_witness :
  (fetch_player_metadata failing_service w_fresh).2 = inl (UpstreamError "HTTP 503").
Proof.
  apply (fetch_player_metadata_propagates failing_service w_fresh
           (UpstreamError "HTTP 503")).
  reflexivity.
Defined.
